(** * The Ginkgo DSL core ([core_dsl.go]) as a shallow embedding

    The package keeps its configuration, its run-once latch, the output
    interceptor and the parallel client in package-level variables, and
    leaves by three doors: a normal return, [os.Exit], or a panic.  The
    embedding threads those variables through a state-and-outcome monad
    and records every call that leaves the package (to the Suite, the
    Failer, the Writer, the interceptor, the client, the standard streams)
    in a chronological trace.  Packages that are imported but not part of
    this file ([types], [internal], [global], [parallel_support],
    [reporters], [formatter], and Go's own [os], [fmt], [strings],
    [filepath]) are an interface, [Externals], over which every theorem is
    universally quantified. *)

From Stdlib Require Import List String Ascii ZArith Bool Lia.
Import ListNotations.
Open Scope string_scope.
Open Scope Z_scope.

Set Implicit Arguments.

(** ** Data *)

(** Go's [int] on the 64-bit targets Ginkgo supports: addition wraps. *)
Definition wrap64 (z : Z) : Z := (z + 2 ^ 63) mod 2 ^ 64 - 2 ^ 63.

Definition int_add (a b : Z) : Z := wrap64 (a + b).

(** The line feed that [Fprintln] appends and that Go writes as [\n]. *)
Definition LF : string := String (ascii_of_nat 10) EmptyString.

(** [types.CodeLocation]. *)
Record CodeLocation := mkCodeLocation {
  FileName : string;
  LineNumber : Z;
  FullStackTrace : string
}.

(** The running goroutine's stack at the moment a DSL function is entered,
    from the function's caller upward.  Go hands it to the callee
    implicitly; here it is an argument. *)
Definition CallStack := list CodeLocation.

(** The fields of [types.SuiteConfig] that this file reads. *)
Record SuiteConfig := mkSuiteConfig {
  RandomSeed : Z;
  Timeout : Z;
  OutputInterceptorMode : string;
  ParallelProcess : Z;
  ParallelTotal : Z;
  ParallelHost : string
}.

(** The fields of [types.ReporterConfig] that this file reads. *)
Record ReporterConfig := mkReporterConfig {
  NoColor : bool;
  Verbose : bool;
  JSONReport : string;
  JUnitReport : string;
  TeamcityReport : string
}.

Definition Labels := list string.

(** [internal.Focus] and [internal.Pending], and the decorators this file
    does not inject itself. *)
Inductive Decorator :=
| Focus
| Pending
| OtherDecorator (name : string).

(** Dynamic values behind Go's [interface{}], and Ginkgo's errors.  A Go
    interface value is [option value]: [None] is [nil]. *)
Inductive value : Type :=
| VSuiteConfig (c : SuiteConfig)
| VReporterConfig (c : ReporterConfig)
| VLabels (l : Labels)
| VDecorator (d : Decorator)
| VError (e : error)
| VString (s : string)
| VInt (n : Z)
| VFunc (id : N)
with error : Type :=
| RerunningSuite
| UnknownTypePassedToRunSpecs (arg : option value)
| UnreachableParallelHost (host : string)
| UncaughtGinkgoPanic (cl : CodeLocation)
| RuntimeError (what : string)
| OtherError (msg : string).

Definition iface := option value.

Inductive OutputInterceptor :=
| NoopOutputInterceptor
| OSGlobalReassigningOutputInterceptor
| DefaultOutputInterceptor.

(** [parallel_support.NewClient(host)]. *)
Inductive Client := NewClient (host : string).

Inductive Reporter :=
| NewDefaultReporter (conf : ReporterConfig)
| NoopReporter.

Inductive WriterMode := WriterModeStreamAndBuffer | WriterModeBufferOnly.

(** [GinkgoWriter] is an exported variable of interface type; [init] puts an
    [*internal.Writer] there, a test file may put anything. *)
Inductive GinkgoWriterInterface :=
| InternalWriter (id : N)
| ForeignWriter (id : N).

Inductive GinkgoTestingT := TestingT (id : N).

Inductive GinkgoFlagSet := TestSuiteFlagSet.

Inductive NodeType :=
| NodeTypeContainer
| NodeTypeIt
| NodeTypeBeforeEach
| NodeTypeJustBeforeEach
| NodeTypeAfterEach
| NodeTypeJustAfterEach
| NodeTypeBeforeAll
| NodeTypeAfterAll
| NodeTypeBeforeSuite
| NodeTypeAfterSuite.

(** What this file needs of [internal.Node]. *)
Record Node := mkNode {
  ID : N;
  NType : NodeType;
  Text : string;
  NodeLocation : CodeLocation;
  MarkedFocus : bool;
  MarkedPending : bool
}.

(** [interrupt_handler.NewInterruptHandler(timeout, client)]. *)
Inductive InterruptHandler := NewInterruptHandler (timeout : Z) (c : option Client).

(** The argument list of [global.Suite.Run]; [global.Failer] is the one
    process-wide Failer, so it is not a field. *)
Record RunArgs := mkRunArgs {
  run_description : string;
  run_suiteLabels : Labels;
  run_suitePath : string;
  run_reporter : Reporter;
  run_writer : N;
  run_outputInterceptor : option OutputInterceptor;
  run_interruptHandler : InterruptHandler;
  run_client : option Client;
  run_suiteConfig : SuiteConfig
}.

(** The four methods of [global.Failer]. *)
Inductive FailerCall :=
| FailerFail (message : string) (cl : CodeLocation)
| FailerSkip (message : string) (cl : CodeLocation)
| FailerAbortSuite (message : string) (cl : CodeLocation)
| FailerPanic (cl : CodeLocation) (forwardedPanic : value).

(** Calls that leave the package, in the order they are made, each with
    the answer it got. *)
Inductive Event :=
| EvInterceptorShutdown (oi : OutputInterceptor)
| EvClientConnect (c : Client) (connected : bool)
| EvClientClose (c : Client)
| EvStdErr (text : string)
| EvStdOut (text : string)
| EvWriterSetMode (w : N) (m : WriterMode)
| EvRegisterReportAfterSuite (conf : ReporterConfig)
| EvBuildTree (err : option error)
| EvGetwd (path : string) (err : option error)
| EvAbs (path : string) (abs : string) (err : option error)
| EvSuiteRun (a : RunArgs) (passed hasFocusedTests : bool)
| EvValidateDeprecations
| EvDidTrackDeprecations (tracked : bool)
| EvDeprecationsReport (report : string)
| EvTestingTFail (t : GinkgoTestingT)
| EvGetenv (name value : string)
| EvFailer (c : FailerCall)
| EvNewNode (nt : NodeType) (text : string) (args : list iface)
            (node : Node) (errors : list error)
| EvPushNode (n : Node) (err : option error).

(** A [defer] statement of the running function, kept until it returns. *)
Inductive DeferredCall := DeferClientClose (c : Client).

(** The package-level variables, the defer stack of the running function,
    and the trace. *)
Record World := mkWorld {
  suiteDidRun : bool;
  suiteConfig : SuiteConfig;
  reporterConfig : ReporterConfig;
  outputInterceptor : option OutputInterceptor;
  client : option Client;
  GinkgoWriter : GinkgoWriterInterface;
  deferred : list DeferredCall;
  trace : list Event
}.

Definition set_suiteDidRun (b : bool) (w : World) : World :=
  mkWorld b (suiteConfig w) (reporterConfig w) (outputInterceptor w) (client w)
          (GinkgoWriter w) (deferred w) (trace w).
Definition set_suiteConfig (c : SuiteConfig) (w : World) : World :=
  mkWorld (suiteDidRun w) c (reporterConfig w) (outputInterceptor w) (client w)
          (GinkgoWriter w) (deferred w) (trace w).
Definition set_reporterConfig (c : ReporterConfig) (w : World) : World :=
  mkWorld (suiteDidRun w) (suiteConfig w) c (outputInterceptor w) (client w)
          (GinkgoWriter w) (deferred w) (trace w).
Definition set_outputInterceptor (o : option OutputInterceptor) (w : World) : World :=
  mkWorld (suiteDidRun w) (suiteConfig w) (reporterConfig w) o (client w)
          (GinkgoWriter w) (deferred w) (trace w).
Definition set_client (c : option Client) (w : World) : World :=
  mkWorld (suiteDidRun w) (suiteConfig w) (reporterConfig w) (outputInterceptor w) c
          (GinkgoWriter w) (deferred w) (trace w).
Definition set_deferred (d : list DeferredCall) (w : World) : World :=
  mkWorld (suiteDidRun w) (suiteConfig w) (reporterConfig w) (outputInterceptor w)
          (client w) (GinkgoWriter w) d (trace w).
Definition add_events (evs : list Event) (w : World) : World :=
  mkWorld (suiteDidRun w) (suiteConfig w) (reporterConfig w) (outputInterceptor w)
          (client w) (GinkgoWriter w) (deferred w) (trace w ++ evs).
Definition add_event (e : Event) (w : World) : World := add_events [e] w.

(** What a call added to the trace. *)
Definition events_since (before after : World) : list Event :=
  skipn (List.length (trace before)) (trace after).

(** ** The three ways out of a Go function *)

Inductive Outcome (A : Type) : Type :=
| Returned (a : A)
| Exited (code : Z)
| Panicked (payload : value).

Arguments Returned {A} a.
Arguments Exited {A} code.
Arguments Panicked {A} payload.

Definition M (A : Type) : Type := World -> Outcome A * World.

Definition ret {A} (a : A) : M A := fun w => (Returned a, w).

Definition bind {A B} (m : M A) (k : A -> M B) : M B :=
  fun w =>
    match m w with
    | (Returned a, w') => k a w'
    | (Exited c, w') => (Exited c, w')
    | (Panicked p, w') => (Panicked p, w')
    end.

Declare Scope go_scope.
Delimit Scope go_scope with go.
Notation "x <- m ;; k" := (bind m (fun x => k))
  (at level 61, m at next level, right associativity) : go_scope.
Notation "m ;; k" := (bind m (fun _ => k))
  (at level 61, right associativity) : go_scope.
Notation "' p <- m ;; k" := (bind m (fun x => match x with p => k end))
  (at level 61, p pattern, m at next level, right associativity) : go_scope.
Open Scope go_scope.

Definition gets {A} (f : World -> A) : M A := fun w => (Returned (f w), w).
Definition modify (f : World -> World) : M unit := fun w => (Returned tt, f w).
Definition emit (e : Event) : M unit := modify (add_event e).
Definition os_Exit {A} (code : Z) : M A := fun w => (Exited code, w).
Definition panic {A} (v : value) : M A := fun w => (Panicked v, w).
Definition when (b : bool) (m : M unit) : M unit := if b then m else ret tt.

Fixpoint for_each {A} (l : list A) (body : A -> M unit) : M unit :=
  match l with
  | [] => ret tt
  | a :: rest => body a ;; for_each rest body
  end.

(** [defer]: remember the call in the frame. *)
Definition defer (d : DeferredCall) : M unit :=
  modify (fun w => set_deferred (d :: deferred w) w).

Definition run_deferred_call (d : DeferredCall) : M unit :=
  match d with
  | DeferClientClose c => emit (EvClientClose c)
  end.

(** A function body with [defer] statements.  Deferred calls run, last
    registered first, when the body returns or panics; [os.Exit] ends the
    process at once and runs none of them. *)
Definition func {A} (body : M A) : M A :=
  fun w =>
    match body (set_deferred [] w) with
    | (Exited c, w') => (Exited c, w')
    | (Returned a, w') =>
        ((for_each (deferred w') run_deferred_call ;;
          modify (set_deferred (deferred w)) ;;
          ret a) (set_deferred [] w'))
    | (Panicked p, w') =>
        ((for_each (deferred w') run_deferred_call ;;
          modify (set_deferred (deferred w)) ;;
          panic p) (set_deferred [] w'))
    end.

(** [recover()] as seen by a deferred function: [nil] when the goroutine is
    not panicking, the value handed to [panic] otherwise.  A panic in flight
    carries a non-nil value ([panic(nil)] reaches [recover] as a
    [*runtime.PanicNilError]). *)
Definition recover (inflight : option value) : iface := inflight.

(** ** The imported packages *)

Class Externals := {
  (** [err.Error()] *)
  err_Error : error -> string;
  (** [fmt]'s formatting of a format string and its operands *)
  fmt_Sprintf : string -> list iface -> string;
  formatter_F : string -> string;
  strings_ToLower : string -> string;
  strings_TrimSpace : string -> string;
  (** [types.NewCodeLocationWithStackTrace(skip)] called from a DSL
      function that was entered with the given stack: [skip = 0] names
      the DSL function itself, [skip = 1] its caller, the stack's first
      frame. *)
  NewCodeLocationWithStackTrace : Z -> CallStack -> CodeLocation;
  GINKGO_FOCUS_EXIT_CODE : Z;
  VetConfig : GinkgoFlagSet -> SuiteConfig -> ReporterConfig -> list error;
  WillGenerateReport : ReporterConfig -> bool;
  (** The stateful collaborators answer as a function of everything that
      has happened so far. *)
  Client_Connect : list Event -> Client -> bool;
  Suite_BuildTree : list Event -> option error;
  os_Getwd : list Event -> string * option error;
  filepath_Abs : list Event -> string -> string * option error;
  Suite_Run : list Event -> RunArgs -> bool * bool;
  DidTrackDeprecations : list Event -> bool;
  DeprecationsReport : list Event -> string;
  os_Getenv : list Event -> string -> string;
  (** [internal.NewNode(deprecationTracker, nodeType, text, args...)] called
      from a DSL function that was entered with the given stack *)
  NewNode : list Event -> CallStack -> NodeType -> string -> list iface -> Node * list error;
  Suite_PushNode : list Event -> Node -> option error
}.

Definition flagSet : GinkgoFlagSet := TestSuiteFlagSet.

(** ** The functions of [core_dsl.go] *)

Section CoreDSL.

Context {X : Externals}.

(** A collaborator is asked, and the call is logged with its answer. *)
Definition ask {A} (oracle : list Event -> A) (log : A -> Event) : M A :=
  fun w => let a := oracle (trace w) in (Returned a, add_event (log a) w).

Definition Fprintln_stderr (s : string) : M unit := emit (EvStdErr (s ++ LF)).
Definition Fprintf_stderr (format : string) : M unit :=
  emit (EvStdErr (fmt_Sprintf format [])).
Definition Println (s : string) : M unit := emit (EvStdOut (s ++ LF)).

Definition Shutdown (oi : OutputInterceptor) : M unit := emit (EvInterceptorShutdown oi).
Definition Close (c : Client) : M unit := emit (EvClientClose c).

(** The two guards that open [exitIfErr] and [exitIfErrors]. *)
Definition shutdown_if_set : M unit :=
  oi <- gets outputInterceptor ;;
  match oi with
  | Some i => Shutdown i
  | None => ret tt
  end.

Definition close_if_set : M unit :=
  c <- gets client ;;
  match c with
  | Some cl => Close cl
  | None => ret tt
  end.

Definition exitIfErr (err : option error) : M unit :=
  match err with
  | Some e =>
      shutdown_if_set ;;
      close_if_set ;;
      Fprintln_stderr (err_Error e) ;;
      os_Exit 1
  | None => ret tt
  end.

Definition exitIfErrors (errors : list error) : M unit :=
  if (0 <? Z.of_nat (List.length errors)) then
    shutdown_if_set ;;
    close_if_set ;;
    for_each errors (fun err => Fprintln_stderr (err_Error err)) ;;
    os_Exit 1
  else ret tt.

(** The [for _, arg := range args] loop of [RunSpecs] with its type switch:
    the two configurations go to the package variables, labels and errors
    accumulate in the locals. *)
Fixpoint RunSpecs_range (args : list iface) (suiteLabels : Labels)
         (configErrors : list error) : M (Labels * list error) :=
  match args with
  | [] => ret (suiteLabels, configErrors)
  | arg :: rest =>
      match arg with
      | Some (VSuiteConfig c) =>
          modify (set_suiteConfig c) ;;
          RunSpecs_range rest suiteLabels configErrors
      | Some (VReporterConfig c) =>
          modify (set_reporterConfig c) ;;
          RunSpecs_range rest suiteLabels configErrors
      | Some (VLabels l) =>
          RunSpecs_range rest (suiteLabels ++ l)%list configErrors
      | _ =>
          RunSpecs_range rest suiteLabels
                         (configErrors ++ [UnknownTypePassedToRunSpecs arg])%list
      end
  end.

(** The [switch strings.ToLower(suiteConfig.OutputInterceptorMode)]. *)
Definition select_outputInterceptor (mode : string) : OutputInterceptor :=
  let m := strings_ToLower mode in
  if String.eqb m "swap" then OSGlobalReassigningOutputInterceptor
  else if String.eqb m "none" then NoopOutputInterceptor
  else DefaultOutputInterceptor.

(** [registerReportAfterSuiteNodeForAutogeneratedReports] is declared in
    another file of the package; its call is logged. *)
Definition registerReportAfterSuiteNodeForAutogeneratedReports
           (conf : ReporterConfig) : M unit :=
  emit (EvRegisterReportAfterSuite conf).

(** The body of [RunSpecs], statement by statement (the numbers are lines
    of [core_dsl.go]).  After the argument loop nothing assigns the two
    configuration variables, so they are read once, as [sc] and [rc]. *)
Definition RunSpecs_body (t : GinkgoTestingT) (description : string)
           (args : list iface) : M bool :=
  (* 208-211 *)
  didRun <- gets suiteDidRun ;;
  when didRun (exitIfErr (Some RerunningSuite)) ;;
  modify (set_suiteDidRun true) ;;

  (* 213-227 *)
  ' (suiteLabels, configErrors) <- RunSpecs_range args [] [] ;;
  exitIfErrors configErrors ;;

  (* 229-236 *)
  sc <- gets suiteConfig ;;
  rc <- gets reporterConfig ;;
  let configErrors := VetConfig flagSet sc rc in
  when (0 <? Z.of_nat (List.length configErrors))
       (Fprintf_stderr
          (formatter_F ("{{red}}Ginkgo detected configuration issues:{{/}}" ++ LF)) ;;
        for_each configErrors (fun err => Fprintf_stderr (err_Error err)) ;;
        os_Exit 1) ;;

  (* 238-259 *)
  reporter <-
    (if ParallelTotal sc =? 1 then
       modify (set_outputInterceptor (Some NoopOutputInterceptor)) ;;
       modify (set_client None) ;;
       ret (NewDefaultReporter rc)
     else
       modify (set_outputInterceptor
                 (Some (select_outputInterceptor (OutputInterceptorMode sc)))) ;;
       modify (set_client (Some (NewClient (ParallelHost sc)))) ;;
       connected <- ask (fun h => Client_Connect h (NewClient (ParallelHost sc)))
                        (EvClientConnect (NewClient (ParallelHost sc))) ;;
       when (negb connected)
            (modify (set_client None) ;;
             exitIfErr (Some (UnreachableParallelHost (ParallelHost sc)))) ;;
       c <- gets client ;;
       match c with
       | Some cl => defer (DeferClientClose cl)
       | None => panic (VError (RuntimeError "nil pointer dereference"))
       end ;;
       ret NoopReporter) ;;

  (* 261-266 *)
  gw <- gets GinkgoWriter ;;
  writer <-
    match gw with
    | InternalWriter w => ret w
    | ForeignWriter _ => panic (VError (RuntimeError "interface conversion"))
    end ;;
  (if Verbose rc && (ParallelTotal sc =? 1)
   then emit (EvWriterSetMode writer WriterModeStreamAndBuffer)
   else emit (EvWriterSetMode writer WriterModeBufferOnly)) ;;

  (* 268-278 *)
  when (WillGenerateReport rc)
       (registerReportAfterSuiteNodeForAutogeneratedReports rc) ;;

  err <- ask Suite_BuildTree EvBuildTree ;;
  exitIfErr err ;;

  ' (suitePath, err) <- ask os_Getwd (fun r => EvGetwd (fst r) (snd r)) ;;
  exitIfErr err ;;
  ' (suitePath, err) <- ask (fun h => filepath_Abs h suitePath)
                            (fun r => EvAbs suitePath (fst r) (snd r)) ;;
  exitIfErr err ;;

  (* 280-281 *)
  oi <- gets outputInterceptor ;;
  c <- gets client ;;
  let a := mkRunArgs description suiteLabels suitePath reporter writer oi
                     (NewInterruptHandler (Timeout sc) c) c sc in
  ' (passed, hasFocusedTests) <- ask (fun h => Suite_Run h a)
                                     (fun r => EvSuiteRun a (fst r) (snd r)) ;;
  oi <- gets outputInterceptor ;;
  match oi with
  | Some i => Shutdown i
  | None => panic (VError (RuntimeError "nil pointer dereference"))
  end ;;

  (* 283-290 *)
  emit EvValidateDeprecations ;;
  tracked <- ask DidTrackDeprecations EvDidTrackDeprecations ;;
  when tracked (report <- ask DeprecationsReport EvDeprecationsReport ;;
                Fprintln_stderr report) ;;

  when (negb passed) (emit (EvTestingTFail t)) ;;

  (* 292-296: the variable is read only when the first two conjuncts hold *)
  focusExit <-
    (if passed && hasFocusedTests then
       marker <- ask (fun h => os_Getenv h "GINKGO_EDITOR_INTEGRATION")
                     (EvGetenv "GINKGO_EDITOR_INTEGRATION") ;;
       ret (String.eqb (strings_TrimSpace marker) EmptyString)
     else ret false) ;;
  when focusExit
       (Println "PASS | FOCUSED" ;;
        os_Exit GINKGO_FOCUS_EXIT_CODE) ;;
  ret passed.

Definition RunSpecs (t : GinkgoTestingT) (description : string)
           (args : list iface) : M bool :=
  func (RunSpecs_body t description args).

(** [callerSkip ...int]: the first element when there is one, else 0. *)
Definition first_callerSkip (callerSkip : list Z) : Z :=
  match callerSkip with
  | [] => 0
  | skip :: _ => skip
  end.


Definition Fail (stack : CallStack) (message : string) (callerSkip : list Z) : M unit :=
  let skip := first_callerSkip callerSkip in
  let cl := NewCodeLocationWithStackTrace (int_add skip 1) stack in
  emit (EvFailer (FailerFail message cl)) ;;
  panic (VError (UncaughtGinkgoPanic cl)).


(** [GinkgoRecover] runs as a deferred call; [inflight] is the panic its
    goroutine is unwinding with, if any. *)
Definition GinkgoRecover (stack : CallStack) (inflight : option value) : M unit :=
  let e := recover inflight in
  match e with
  | Some v => emit (EvFailer (FailerPanic (NewCodeLocationWithStackTrace 1 stack) v))
  | None => ret tt
  end.

(** [go func() { defer GinkgoRecover(); body }()]: the deferred call sees
    the panic the body ended with, and the goroutine's function returns. *)
Definition go_with_GinkgoRecover (stack : CallStack) (body : M unit) : M unit :=
  fun w =>
    match body w with
    | (Returned _, w') => GinkgoRecover stack None w'
    | (Panicked p, w') => GinkgoRecover stack (Some p) w'
    | (Exited c, w') => (Exited c, w')
    end.

Definition pushNode (built : Node * list error) : M bool :=
  let (node, errors) := built in
  exitIfErrors errors ;;
  err <- ask (fun h => Suite_PushNode h node) (EvPushNode node) ;;
  exitIfErr err ;;
  ret true.

(** [internal.NewNode] with the package's deprecation tracker. *)
Definition new_node (stack : CallStack) (nt : NodeType) (text : string)
           (args : list iface) : M (Node * list error) :=
  ask (fun h => NewNode h stack nt text args)
      (fun r => EvNewNode nt text args (fst r) (snd r)).

Definition Describe (stack : CallStack) (text : string) (args : list iface) : M bool :=
  built <- new_node stack NodeTypeContainer text args ;;
  pushNode built.

(** [args = append(args, internal.Focus)]: the variadic arguments with one
    more element.  Argument lists are values here; a backing array that a
    caller passing [slice...] might share is not part of the model. *)
Definition FDescribe (stack : CallStack) (text : string) (args : list iface) : M bool :=
  let args := (args ++ [Some (VDecorator Focus)])%list in
  built <- new_node stack NodeTypeContainer text args ;;
  pushNode built.

Definition PDescribe (stack : CallStack) (text : string) (args : list iface) : M bool :=
  let args := (args ++ [Some (VDecorator Pending)])%list in
  built <- new_node stack NodeTypeContainer text args ;;
  pushNode built.

Definition XDescribe := PDescribe.

Definition It (stack : CallStack) (text : string) (args : list iface) : M bool :=
  built <- new_node stack NodeTypeIt text args ;;
  pushNode built.

Definition FIt (stack : CallStack) (text : string) (args : list iface) : M bool :=
  let args := (args ++ [Some (VDecorator Focus)])%list in
  built <- new_node stack NodeTypeIt text args ;;
  pushNode built.

Definition PIt (stack : CallStack) (text : string) (args : list iface) : M bool :=
  let args := (args ++ [Some (VDecorator Pending)])%list in
  built <- new_node stack NodeTypeIt text args ;;
  pushNode built.

Definition XIt := PIt.

End CoreDSL.


(** ** The rest of the package's surface *)


(** A collaborator that only builds a value: it is consulted, nothing is
    logged. *)
Definition consult {A} (oracle : list Event -> A) : M A :=
  fun w => (Returned (oracle (trace w)), w).

Section Surface.

Context {X : Externals}.


Definition GinkgoConfiguration : M (SuiteConfig * ReporterConfig) :=
  sc <- gets suiteConfig ;;
  rc <- gets reporterConfig ;;
  ret (sc, rc).

Definition GinkgoRandomSeed : M Z :=
  sc <- gets suiteConfig ;;
  ret (RandomSeed sc).

Definition GinkgoParallelProcess : M Z :=
  sc <- gets suiteConfig ;;
  ret (ParallelProcess sc).

(** [PauseOutputInterception] and [ResumeOutputInterception].  The
    interceptor's own method is code of another package: it is an argument,
    and may do anything. *)
Definition PauseOutputInterception (PauseIntercepting : OutputInterceptor -> M unit)
  : M unit :=
  oi <- gets outputInterceptor ;;
  match oi with
  | None => ret tt
  | Some i => PauseIntercepting i
  end.

Definition ResumeOutputInterception (ResumeIntercepting : OutputInterceptor -> M unit)
  : M unit :=
  oi <- gets outputInterceptor ;;
  match oi with
  | None => ret tt
  | Some i => ResumeIntercepting i
  end.

(** The setup nodes.  A body is a [func()] value; the text is empty. *)
Definition BeforeSuite (stack : CallStack) (body : value) : M bool :=
  built <- new_node stack NodeTypeBeforeSuite EmptyString [Some body] ;;
  pushNode built.

Definition AfterSuite (stack : CallStack) (body : value) : M bool :=
  built <- new_node stack NodeTypeAfterSuite EmptyString [Some body] ;;
  pushNode built.

Definition BeforeEach (stack : CallStack) (args : list iface) : M bool :=
  built <- new_node stack NodeTypeBeforeEach EmptyString args ;;
  pushNode built.

Definition JustBeforeEach (stack : CallStack) (args : list iface) : M bool :=
  built <- new_node stack NodeTypeJustBeforeEach EmptyString args ;;
  pushNode built.

Definition AfterEach (stack : CallStack) (args : list iface) : M bool :=
  built <- new_node stack NodeTypeAfterEach EmptyString args ;;
  pushNode built.

Definition JustAfterEach (stack : CallStack) (args : list iface) : M bool :=
  built <- new_node stack NodeTypeJustAfterEach EmptyString args ;;
  pushNode built.

Definition BeforeAll (stack : CallStack) (args : list iface) : M bool :=
  built <- new_node stack NodeTypeBeforeAll EmptyString args ;;
  pushNode built.

Definition AfterAll (stack : CallStack) (args : list iface) : M bool :=
  built <- new_node stack NodeTypeAfterAll EmptyString args ;;
  pushNode built.

(** The synchronized suite nodes and the cleanup node are built by
    constructors of package [internal] other than [NewNode], and located by
    [types.NewCodeLocation(1)]: these are arguments. *)
Definition SynchronizedBeforeSuite
           (NewSynchronizedBeforeSuiteNode :
              list Event -> value -> value -> CodeLocation -> Node * list error)
           (NewCodeLocation : Z -> CallStack -> CodeLocation)
           (stack : CallStack) (process1Body allProcessBody : value) : M bool :=
  built <- consult (fun h => NewSynchronizedBeforeSuiteNode
                               h process1Body allProcessBody
                               (NewCodeLocation 1 stack)) ;;
  pushNode built.

Definition SynchronizedAfterSuite
           (NewSynchronizedAfterSuiteNode :
              list Event -> value -> value -> CodeLocation -> Node * list error)
           (NewCodeLocation : Z -> CallStack -> CodeLocation)
           (stack : CallStack) (allProcessBody process1Body : value) : M bool :=
  built <- consult (fun h => NewSynchronizedAfterSuiteNode
                               h allProcessBody process1Body
                               (NewCodeLocation 1 stack)) ;;
  pushNode built.

(** [DeferCleanup]: the [fail] closure it hands to the constructor is
    always the same one, so it is part of the constructor here; the result
    of [pushNode] is dropped. *)
Definition DeferCleanup
           (NewCleanupNode : list Event -> list iface -> Node * list error)
           (args : list iface) : M unit :=
  built <- consult (fun h => NewCleanupNode h args) ;;
  pushNode built ;;
  ret tt.

End Surface.

(** ** What the argument loop computes *)

Definition is_recognized (arg : iface) : bool :=
  match arg with
  | Some (VSuiteConfig _) | Some (VReporterConfig _) | Some (VLabels _) => true
  | _ => false
  end.

Definition unrecognized (args : list iface) : list iface :=
  filter (fun arg => negb (is_recognized arg)) args.

(** The last suite configuration among the arguments, else the one in force. *)
Fixpoint merged_suiteConfig (args : list iface) (current : SuiteConfig) : SuiteConfig :=
  match args with
  | [] => current
  | Some (VSuiteConfig c) :: rest => merged_suiteConfig rest c
  | _ :: rest => merged_suiteConfig rest current
  end.

Fixpoint merged_reporterConfig (args : list iface) (current : ReporterConfig)
  : ReporterConfig :=
  match args with
  | [] => current
  | Some (VReporterConfig c) :: rest => merged_reporterConfig rest c
  | _ :: rest => merged_reporterConfig rest current
  end.

Fixpoint merged_labels (args : list iface) : Labels :=
  match args with
  | [] => []
  | Some (VLabels l) :: rest => (l ++ merged_labels rest)%list
  | _ :: rest => merged_labels rest
  end.

(** The releases that open [exitIfErr] and [exitIfErrors], as events. *)
Definition release_events (w : World) : list Event :=
  (match outputInterceptor w with
   | Some i => [EvInterceptorShutdown i]
   | None => []
   end ++
   match client w with
   | Some c => [EvClientClose c]
   | None => []
   end)%list.

(** Events by which the Suite builds or executes the tree. *)
Definition runs_suite (e : Event) : bool :=
  match e with
  | EvBuildTree _ | EvSuiteRun _ _ _ => true
  | _ => false
  end.

Definition is_SetMode (e : Event) : bool :=
  match e with
  | EvWriterSetMode _ _ => true
  | _ => false
  end.

Definition is_ClientClose (e : Event) : bool :=
  match e with
  | EvClientClose _ => true
  | _ => false
  end.


(** ** What the properties speak about *)

Section Transcripts.

Context {X : Externals}.

(** What a refused second run adds to the trace: the releases, then the
    re-run error on the error stream. *)
Definition rerun_events (w : World) : list Event :=
  (release_events w ++ [EvStdErr (err_Error RerunningSuite ++ LF)])%list.

(** The line [exitIfErrors] prints for an unrecognized argument. *)
Definition unknown_argument_line (arg : iface) : Event :=
  EvStdErr (err_Error (UnknownTypePassedToRunSpecs arg) ++ LF).

(** What the flag-validation step prints before it exits. *)
Definition flag_error_events (errs : list error) : list Event :=
  EvStdErr (fmt_Sprintf
              (formatter_F ("{{red}}Ginkgo detected configuration issues:{{/}}" ++ LF)) [])
  :: map (fun e => EvStdErr (fmt_Sprintf (err_Error e) [])) errs.

(** An error counts as reported when its message went to the error stream,
    by [Fprintln] or as the format of [Fprintf]. *)
Definition reported (e : error) (evs : list Event) : Prop :=
  In (EvStdErr (err_Error e ++ LF)) evs \/
  In (EvStdErr (fmt_Sprintf (err_Error e) [])) evs.


(** The location [Fail], [Skip] and [AbortSuite] capture: the caller's
    frame, moved by the offset the caller supplied. *)
Definition signal_location (stack : CallStack) (callerSkip : list Z) : CodeLocation :=
  NewCodeLocationWithStackTrace (int_add (first_callerSkip callerSkip) 1) stack.

(** The base call with one decorator appended to its arguments: what the
    specification says a focused or pending variant is. *)
Definition decorated (base : CallStack -> string -> list iface -> M bool)
           (d : Decorator) (stack : CallStack) (text : string) (args : list iface)
  : M bool :=
  base stack text (args ++ [Some (VDecorator d)])%list.

(** The environment variable that editor integrations set. *)
Definition editor_marker : string := "GINKGO_EDITOR_INTEGRATION".

End Transcripts.

(** The reading under which a call with an unrecognized argument reports
    that error together with the flag-validation errors of the same call. *)
Definition configuration_errors_reported_together : Prop :=
  forall (X : Externals) t d args w,
    suiteDidRun w = false ->
    unrecognized args <> [] ->
    forall e,
      In e (map UnknownTypePassedToRunSpecs (unrecognized args) ++
            VetConfig flagSet (merged_suiteConfig args (suiteConfig w))
                      (merged_reporterConfig args (reporterConfig w)))%list ->
      reported e (events_since w (snd (RunSpecs t d args w))).

(** ** More to speak about *)

Definition is_SuiteRun (e : Event) : bool :=
  match e with
  | EvSuiteRun _ _ _ => true
  | _ => false
  end.

Definition is_BuildTree_ok (e : Event) : bool :=
  match e with
  | EvBuildTree None => true
  | _ => false
  end.

Definition is_DeprecationsReport (e : Event) : bool :=
  match e with
  | EvDeprecationsReport _ => true
  | _ => false
  end.

(** The events before the first [Suite.Run], and those after it. *)
Fixpoint before_run (evs : list Event) : list Event :=
  match evs with
  | [] => []
  | EvSuiteRun _ _ _ :: _ => []
  | e :: rest => e :: before_run rest
  end.

Fixpoint after_run (evs : list Event) : list Event :=
  match evs with
  | [] => []
  | EvSuiteRun _ _ _ :: rest => rest
  | _ :: rest => after_run rest
  end.

(** An infrastructure call that answered with the error [e]. *)
Definition failed_with (e : error) (ev : Event) : Prop :=
  match ev with
  | EvBuildTree (Some e') => e' = e
  | EvGetwd _ (Some e') => e' = e
  | EvAbs _ _ (Some e') => e' = e
  | _ => False
  end.

(** The package variables, trace and defer stack apart. *)
Definition same_variables (w w' : World) : Prop :=
  suiteDidRun w' = suiteDidRun w /\
  suiteConfig w' = suiteConfig w /\
  reporterConfig w' = reporterConfig w /\
  outputInterceptor w' = outputInterceptor w /\
  client w' = client w /\
  GinkgoWriter w' = GinkgoWriter w.

(** What registering a node may do: return [result] after the Suite has
    accepted a node, or end the process with status 1 after an error
    message and without an accepted node; either way no package variable
    changes. *)
Definition registers {A} (result : A) (m : M A) : Prop :=
  forall w,
    let evs := events_since w (snd (m w)) in
    same_variables w (snd (m w)) /\
    ((fst (m w) = Returned result /\ exists node, In (EvPushNode node None) evs) \/
     (fst (m w) = Exited 1 /\
      (exists text, In (EvStdErr text) evs) /\
      forall node, ~ In (EvPushNode node None) evs)).

(** ** A concrete set of collaborators, for running the model *)

Module Scenario.

Definition lower (c : ascii) : ascii :=
  let n := nat_of_ascii c in
  if (Nat.leb 65 n && Nat.leb n 90)%bool then ascii_of_nat (n + 32) else c.

Fixpoint ToLower (s : string) : string :=
  match s with
  | EmptyString => EmptyString
  | String c rest => String (lower c) (ToLower rest)
  end.

(** Tab, line feed, vertical tab, form feed, carriage return, space. *)
Definition isSpace (c : ascii) : bool :=
  let n := nat_of_ascii c in
  ((Nat.leb 9 n && Nat.leb n 13) || Nat.eqb n 32)%bool.

Fixpoint TrimLeft (s : string) : string :=
  match s with
  | EmptyString => EmptyString
  | String c rest => if isSpace c then TrimLeft rest else s
  end.

Fixpoint TrimRight (s : string) : string :=
  match s with
  | EmptyString => EmptyString
  | String c rest =>
      match TrimRight rest with
      | EmptyString => if isSpace c then EmptyString else String c EmptyString
      | kept => String c kept
      end
  end.

Definition TrimSpace (s : string) : string := TrimRight (TrimLeft s).

(** Nothing but white space, or nothing at all. *)
Fixpoint blank (s : string) : bool :=
  match s with
  | EmptyString => true
  | String c rest => (isSpace c && blank rest)%bool
  end.

Definition Error (e : error) : string :=
  match e with
  | RerunningSuite => "Ginkgo does not support rerunning suites"
  | UnknownTypePassedToRunSpecs _ => "RunSpecs received an unknown parameter type"
  | UnreachableParallelHost host => "Unreachable parallel host: " ++ host
  | UncaughtGinkgoPanic _ => "Your Test Panicked"
  | RuntimeError what => "runtime error: " ++ what
  | OtherError msg => msg
  end.

(** Skip 0 is the DSL function itself, skip k the k-th frame above it. *)
Definition location (skip : Z) (stack : CallStack) : CodeLocation :=
  if skip <=? 0 then mkCodeLocation "core_dsl.go" 0 EmptyString
  else nth (Z.to_nat (skip - 1)) stack (mkCodeLocation "unknown" 0 EmptyString).

Definition has_decorator (d : Decorator) (args : list iface) : bool :=
  existsb (fun a => match a, d with
                    | Some (VDecorator Focus), Focus => true
                    | Some (VDecorator Pending), Pending => true
                    | _, _ => false
                    end) args.

Definition build_node (h : list Event) (stack : CallStack) (nt : NodeType)
           (text : string) (args : list iface) : Node * list error :=
  (mkNode (N.of_nat (List.length h)) nt text (location 1 stack)
          (has_decorator Focus args) (has_decorator Pending args),
   if (has_decorator Focus args && has_decorator Pending args)%bool
   then [OtherError "Invalid Combination of Decorators: Focus and Pending"]
   else []).

(** What the collaborators answer in one scenario. *)
Record Script := mkScript {
  flagErrors : list error;
  connects : bool;
  buildError : option error;
  runResult : bool * bool;
  marker : string
}.

Definition externals (sc : Script) : Externals := {|
  err_Error := Error;
  fmt_Sprintf := fun format _ => format;
  formatter_F := fun s => s;
  strings_ToLower := ToLower;
  strings_TrimSpace := TrimSpace;
  NewCodeLocationWithStackTrace := location;
  GINKGO_FOCUS_EXIT_CODE := 197;
  VetConfig := fun _ _ _ => flagErrors sc;
  WillGenerateReport := fun rc =>
    negb (String.eqb (JSONReport rc) EmptyString
          && String.eqb (JUnitReport rc) EmptyString
          && String.eqb (TeamcityReport rc) EmptyString);
  Client_Connect := fun _ _ => connects sc;
  Suite_BuildTree := fun _ => buildError sc;
  os_Getwd := fun _ => ("/home/suite", None);
  filepath_Abs := fun _ path => (path, None);
  Suite_Run := fun _ _ => runResult sc;
  DidTrackDeprecations := fun _ => false;
  DeprecationsReport := fun _ => EmptyString;
  os_Getenv := fun _ _ => marker sc;
  NewNode := build_node;
  Suite_PushNode := fun _ _ => None
|}.

Definition defaultSuiteConfig : SuiteConfig :=
  mkSuiteConfig 1 3600 EmptyString 1 1 EmptyString.

Definition defaultReporterConfig : ReporterConfig :=
  mkReporterConfig false false EmptyString EmptyString EmptyString.

(** The package variables as [init] leaves them. *)
Definition fresh : World :=
  mkWorld false defaultSuiteConfig defaultReporterConfig None None
          (InternalWriter 0) [] [].

Definition parallelSuiteConfig : SuiteConfig :=
  mkSuiteConfig 1 3600 "SWAP" 2 2 "127.0.0.1:7000".

Definition t0 : GinkgoTestingT := TestingT 0.

Definition flag_error : error := OtherError "--focus-file: malformed filter".

(** Flag validation finds one error. *)
Definition bad_flags : Script :=
  mkScript [flag_error] true None (true, false) EmptyString.

(** Everything passes, focused specs were present, no editor marker. *)
Definition focused_pass : Script :=
  mkScript [] true None (true, true) EmptyString.

(** The same with a marker of two spaces and a tab. *)
Definition focused_pass_blank_marker : Script :=
  mkScript [] true None (true, true)
           (String " " (String " " (String (ascii_of_nat 9) EmptyString))).

(** The same under an editor integration. *)
Definition focused_pass_in_editor : Script :=
  mkScript [] true None (true, true) "true".

(** The coordination endpoint does not answer. *)
Definition unreachable_host : Script :=
  mkScript [] false None (true, false) EmptyString.

Definition plain_pass : Script :=
  mkScript [] true None (true, false) EmptyString.

Definition verboseReporterConfig : ReporterConfig :=
  mkReporterConfig false true EmptyString EmptyString EmptyString.

Definition caller : CodeLocation := mkCodeLocation "book_test.go" 42 EmptyString.

Definition coordinator : Client := NewClient "127.0.0.1:7000".

(** What [Suite.Run] receives in a parallel process of this scenario. *)
Definition parallel_run_args : RunArgs :=
  mkRunArgs "suite" [] "/home/suite" NoopReporter 0
            (Some OSGlobalReassigningOutputInterceptor)
            (NewInterruptHandler 3600 (Some coordinator)) (Some coordinator)
            parallelSuiteConfig.

End Scenario.


(** ** More scenarios *)

Module Cases.


(** A process in which [RunSpecs] has already run, in parallel. *)
Definition latched : World :=
  mkWorld true Scenario.parallelSuiteConfig Scenario.defaultReporterConfig
          (Some DefaultOutputInterceptor) (Some Scenario.coordinator)
          (InternalWriter 0) [] [].

Definition tree_error : error := OtherError "It must be passed a function".

(** The tree does not build. *)
Definition broken_tree : Scenario.Script :=
  Scenario.mkScript [] true (Some tree_error) (true, false) EmptyString.

(** Specs fail. *)
Definition failing : Scenario.Script :=
  Scenario.mkScript [] true None (false, false) EmptyString.

(** Collaborators like those of [Scenario.plain_pass], with a tracker
    that has tracked a deprecation. *)
Definition deprecated : Externals := {|
  err_Error := Scenario.Error;
  fmt_Sprintf := fun format _ => format;
  formatter_F := fun s => s;
  strings_ToLower := Scenario.ToLower;
  strings_TrimSpace := Scenario.TrimSpace;
  NewCodeLocationWithStackTrace := Scenario.location;
  GINKGO_FOCUS_EXIT_CODE := 197;
  VetConfig := fun _ _ _ => [];
  WillGenerateReport := fun _ => false;
  Client_Connect := fun _ _ => true;
  Suite_BuildTree := fun _ => None;
  os_Getwd := fun _ => ("/home/suite", None);
  filepath_Abs := fun _ path => (path, None);
  Suite_Run := fun _ _ => (true, false);
  DidTrackDeprecations := fun _ => true;
  DeprecationsReport := fun _ => "You are using deprecated Ginkgo functionality";
  os_Getenv := fun _ _ => EmptyString;
  NewNode := Scenario.build_node;
  Suite_PushNode := fun _ _ => None
|}.

(** What [Suite.Run] receives in a solo run of [Scenario.fresh]. *)
Definition solo_run_args : RunArgs :=
  mkRunArgs "suite" [] "/home/suite"
            (NewDefaultReporter Scenario.defaultReporterConfig) 0
            (Some NoopOutputInterceptor) (NewInterruptHandler 3600 None) None
            Scenario.defaultSuiteConfig.

End Cases.

(** ** Running the model symbolically *)

Section Execution.

Context {X : Externals}.

Lemma events_since_app (w w' : World) (evs : list Event) :
  trace w' = (trace w ++ evs)%list -> events_since w w' = evs.
Proof.
  unfold events_since. intros ->.
  rewrite skipn_app, skipn_all, Nat.sub_diag. reflexivity.
Qed.

Lemma events_since_mk a b c d e f g a' b' c' d' e' f' g' tr evs :
  events_since (mkWorld a b c d e f g tr) (mkWorld a' b' c' d' e' f' g' (tr ++ evs)) = evs.
Proof. apply events_since_app. reflexivity. Qed.

Lemma events_since_refl a b c d e f g a' b' c' d' e' f' g' tr :
  events_since (mkWorld a b c d e f g tr) (mkWorld a' b' c' d' e' f' g' tr) = [].
Proof. apply events_since_app. simpl. now rewrite app_nil_r. Qed.

Lemma for_each_emit {A} (f : A -> Event) (l : list A) (w : World) :
  for_each l (fun a => emit (f a)) w = (Returned tt, add_events (map f l) w).
Proof.
  revert w. induction l as [|a l IH]; intros [dr sc rc oi cl gw df tr].
  - unfold add_events. simpl. rewrite app_nil_r. reflexivity.
  - simpl. unfold bind at 1. unfold emit at 1, modify. rewrite IH.
    unfold add_event, add_events. simpl. rewrite <- app_assoc. reflexivity.
Qed.

Lemma RunSpecs_range_from (args : list iface) :
  forall (labels : Labels) (errs : list error) (w : World),
    RunSpecs_range args labels errs w =
    (Returned ((labels ++ merged_labels args)%list,
               (errs ++ map UnknownTypePassedToRunSpecs (unrecognized args))%list),
     set_reporterConfig (merged_reporterConfig args (reporterConfig w))
       (set_suiteConfig (merged_suiteConfig args (suiteConfig w)) w)).
Proof.
  induction args as [|arg rest IH]; intros labels errs [dr sc rc oi cl gw df tr].
  - simpl. rewrite !app_nil_r. reflexivity.
  - destruct arg as [[c|c|l|d|e|s|n|f]|]; simpl;
      try (unfold bind, modify; simpl); rewrite IH; simpl;
      rewrite <- ?app_assoc; reflexivity.
Qed.

(** The loop never leaves [RunSpecs]: it returns the merged labels and one
    error per unrecognized argument, in argument order. *)
Lemma RunSpecs_range_spec (args : list iface) (w : World) :
  RunSpecs_range args [] [] w =
  (Returned (merged_labels args, map UnknownTypePassedToRunSpecs (unrecognized args)),
   set_reporterConfig (merged_reporterConfig args (reporterConfig w))
     (set_suiteConfig (merged_suiteConfig args (suiteConfig w)) w)).
Proof. apply RunSpecs_range_from. Qed.

Lemma nonempty_test {A} (l : list A) :
  (0 <? Z.of_nat (List.length l)) = match l with [] => false | _ :: _ => true end.
Proof. destruct l; reflexivity. Qed.

End Execution.

(** The scrutinee that decides which way the program goes next. *)
Ltac head_of t :=
  lazymatch t with
  | match ?x with _ => _ end => head_of x
  | (match ?x with _ => _ end) _ => head_of x
  | _ => t
  end.

Ltac run_in t :=
  eval cbv beta iota zeta delta
    [RunSpecs func RunSpecs_body bind gets modify when ask ret defer panic os_Exit
     exitIfErr exitIfErrors shutdown_if_set close_if_set Fprintln_stderr Fprintf_stderr
     Println Shutdown Close registerReportAfterSuiteNodeForAutogeneratedReports
     run_deferred_call pushNode new_node
     set_suiteDidRun set_suiteConfig set_reporterConfig set_outputInterceptor set_client
     set_deferred add_event add_events
     suiteDidRun suiteConfig reporterConfig outputInterceptor client GinkgoWriter
     deferred trace fst snd negb andb]
  in t.

(** On a goal [program world = (o, w') -> P]: evaluate the program. *)
Ltac run :=
  lazymatch goal with
  | |- ?t = ?r -> ?P => let t' := run_in t in change (t' = r -> P)
  end.

(** Where the evaluation is stuck on an answer of a collaborator, a flag or
    a list, take every case. *)
Ltac split_head :=
  lazymatch goal with
  | |- ?t = _ -> _ =>
      lazymatch t with
      | context [match ?x with _ => _ end] =>
          let h := head_of x in
          lazymatch h with
          | emit ?e ?w => change (emit e w) with (Returned tt, add_event e w)
          | RunSpecs_range ?a [] [] ?w => rewrite (RunSpecs_range_spec a w)
          | for_each _ _ _ => rewrite for_each_emit
          | (0 <? Z.of_nat (List.length (map _ _))) => rewrite length_map
          | (0 <? Z.of_nat (List.length _)) => rewrite nonempty_test
          | _ => destruct h eqn:?
          end
      end
  end.

Ltac all_paths := run; repeat (split_head; run).

(** At the end of a path: name the outcome and the final world, and bring
    the trace to the form [old ++ new]. *)
Ltac at_end :=
  let E := fresh "E" in
  intros E; injection E as <- <-;
  cbn [fst snd suiteDidRun suiteConfig reporterConfig outputInterceptor client
       GinkgoWriter deferred trace];
  rewrite <- ?app_assoc; cbn [app];
  rewrite ?events_since_mk, ?events_since_refl.

(** Like [split_head], but an answer that a hypothesis already fixes is
    used instead of being split. *)
Ltac follow_head :=
  lazymatch goal with
  | |- ?t = _ -> _ =>
      lazymatch t with
      | context [match ?x with _ => _ end] =>
          let h := head_of x in
          lazymatch h with
          | emit ?e ?w => change (emit e w) with (Returned tt, add_event e w)
          | RunSpecs_range ?a [] [] ?w => rewrite (RunSpecs_range_spec a w)
          | for_each _ _ _ => rewrite for_each_emit
          | (0 <? Z.of_nat (List.length (map _ _))) => rewrite length_map
          | (0 <? Z.of_nat (List.length _)) => rewrite nonempty_test
          | _ => first [ match goal with H : h = _ |- _ => rewrite H end
                       | destruct h eqn:? ]
          end
      end
  end.

Ltac follow_paths := run; repeat (follow_head; run).

Ltac splits := repeat lazymatch goal with |- _ /\ _ => split end.

(** Go through the events of a finished path looking for the one that [H]
    says is among them. *)
Ltac find_event H :=
  simpl in H;
  repeat lazymatch type of H with
         | _ \/ _ => destruct H as [H|H]; [try discriminate H|]
         | In _ (map _ _) =>
             let x := fresh "x" in
             let Hx := fresh "Hx" in
             apply in_map_iff in H; destruct H as [x [H Hx]]; try discriminate H
         | False => destruct H
         end.

(** Exhibit an event of a given shape in the events of a finished path. *)
Ltac pick_event := solve [simpl; repeat first [left; reflexivity | right]].

(** Histories in the hypotheses, in the form [old ++ new] as well. *)
Ltac normal_histories :=
  repeat match goal with
         | H : context [((_ ++ _) ++ _)%list] |- _ => rewrite <- app_assoc in H
         end;
  cbn [app] in *.

(** Boolean tests recorded along a path, as propositions. *)
Ltac tests_as_props :=
  repeat match goal with
         | H : (_ =? _) = true |- _ => apply Z.eqb_eq in H
         | H : (_ =? _) = false |- _ => apply Z.eqb_neq in H
         | H : String.eqb _ _ = true |- _ => apply String.eqb_eq in H
         | H : String.eqb _ _ = false |- _ => apply String.eqb_neq in H
         end.

(** ** The concrete collaborators at work *)

(** The scenario's [TrimSpace] yields the empty string on blank strings
    and on no others. *)
Lemma TrimLeft_blank s : Scenario.blank s = true -> Scenario.TrimLeft s = EmptyString.
Proof.
  induction s as [|c rest IH]; simpl; [reflexivity|].
  intros H. apply andb_prop in H. destruct H as [Hc Hrest].
  rewrite Hc. auto.
Qed.

Lemma TrimLeft_starts s :
  Scenario.TrimLeft s = EmptyString \/
  exists c rest, Scenario.TrimLeft s = String c rest /\ Scenario.isSpace c = false.
Proof.
  induction s as [|c rest IH]; simpl; [left; reflexivity|].
  destruct (Scenario.isSpace c) eqn:Hc; [exact IH|].
  right. exists c, rest. split; [reflexivity|exact Hc].
Qed.

Lemma TrimLeft_empty_blank s :
  Scenario.TrimLeft s = EmptyString -> Scenario.blank s = true.
Proof.
  induction s as [|c rest IH]; simpl; [reflexivity|].
  destruct (Scenario.isSpace c); [auto|discriminate].
Qed.

Lemma TrimRight_keeps_start c rest :
  Scenario.isSpace c = false -> Scenario.TrimRight (String c rest) <> EmptyString.
Proof.
  intros Hc. simpl. destruct (Scenario.TrimRight rest); [rewrite Hc|]; discriminate.
Qed.

Lemma TrimSpace_blank s :
  Scenario.TrimSpace s = EmptyString <-> Scenario.blank s = true.
Proof.
  unfold Scenario.TrimSpace. split.
  - intros H. destruct (TrimLeft_starts s) as [Hl|[c [rest [Hl Hc]]]].
    + apply TrimLeft_empty_blank, Hl.
    + rewrite Hl in H. exfalso. exact (@TrimRight_keeps_start c rest Hc H).
  - intros H. rewrite (TrimLeft_blank s H). reflexivity.
Qed.

Example solo_focused_run :
  fst (RunSpecs (X := Scenario.externals Scenario.focused_pass) Scenario.t0 "suite" []
                Scenario.fresh) = Exited 197.
Proof. reflexivity. Qed.

Example solo_plain_run :
  RunSpecs (X := Scenario.externals Scenario.plain_pass) Scenario.t0 "suite" []
           Scenario.fresh
  = (Returned true,
     mkWorld true Scenario.defaultSuiteConfig Scenario.defaultReporterConfig
             (Some NoopOutputInterceptor) None (InternalWriter 0) []
             [EvWriterSetMode 0 WriterModeBufferOnly; EvBuildTree None;
              EvGetwd "/home/suite" None; EvAbs "/home/suite" "/home/suite" None;
              EvSuiteRun (mkRunArgs "suite" [] "/home/suite"
                            (NewDefaultReporter Scenario.defaultReporterConfig) 0
                            (Some NoopOutputInterceptor)
                            (NewInterruptHandler 3600 None) None
                            Scenario.defaultSuiteConfig) true false;
              EvInterceptorShutdown NoopOutputInterceptor;
              EvValidateDeprecations; EvDidTrackDeprecations false]).
Proof. reflexivity. Qed.

(** A parallel process that passes without focus closes its client when
    [RunSpecs] returns, by the deferred call. *)
Example parallel_plain_run_closes_client :
  fst (RunSpecs (X := Scenario.externals Scenario.plain_pass) Scenario.t0 "suite"
                [Some (VSuiteConfig Scenario.parallelSuiteConfig)] Scenario.fresh)
  = Returned true /\
  last (trace (snd (RunSpecs (X := Scenario.externals Scenario.plain_pass)
                             Scenario.t0 "suite"
                             [Some (VSuiteConfig Scenario.parallelSuiteConfig)]
                             Scenario.fresh)))
       EvValidateDeprecations
  = EvClientClose Scenario.coordinator.
Proof. split; reflexivity. Qed.

Example FDescribe_pushes_focused_node :
  exists node,
    In (EvPushNode node None)
       (trace (snd (FDescribe (X := Scenario.externals Scenario.plain_pass)
                              [Scenario.caller] "a book" [Some (VFunc 1)]
                              Scenario.fresh))) /\
    MarkedFocus node = true /\ MarkedPending node = false /\
    NodeLocation node = Scenario.caller.
Proof.
  eexists. split; [right; left; reflexivity|]. repeat split.
Qed.

Example Fail_in_recovered_goroutine :
  go_with_GinkgoRecover (X := Scenario.externals Scenario.plain_pass)
    [Scenario.caller]
    (Fail (X := Scenario.externals Scenario.plain_pass) [Scenario.caller] "boom" [])
    Scenario.fresh
  = (Returned tt,
     add_events
       [EvFailer (FailerFail "boom" Scenario.caller);
        EvFailer (FailerPanic Scenario.caller
                              (VError (UncaughtGinkgoPanic Scenario.caller)))]
       Scenario.fresh).
Proof. reflexivity. Qed.

(** ** The run-once latch *)

Section Latch.

Context {X : Externals}.

(** Whatever way [RunSpecs] ends, the latch is set afterwards. *)
Lemma RunSpecs_sets_latch t d args w :
  suiteDidRun (snd (RunSpecs t d args w)) = true.
Proof.
  destruct (RunSpecs t d args w) as [o w'] eqn:E. revert E.
  destruct w as [dr sc rc oi cl gw df tr].
  all_paths; at_end; reflexivity.
Qed.

(** With the latch set, [RunSpecs] goes through [exitIfErr] and nowhere
    else. *)
Lemma RunSpecs_latched t d args w :
  suiteDidRun w = true ->
  fst (RunSpecs t d args w) = Exited 1 /\
  events_since w (snd (RunSpecs t d args w)) = rerun_events w.
Proof.
  intros H.
  destruct (RunSpecs t d args w) as [o w'] eqn:E. revert E.
  destruct w as [dr sc rc oi cl gw df tr]. simpl in H. subst dr.
  unfold rerun_events, release_events.
  all_paths; at_end; split; reflexivity.
Qed.

Lemma rerun_events_run_nothing w : existsb runs_suite (rerun_events w) = false.
Proof.
  unfold rerun_events, release_events.
  destruct (outputInterceptor w), (client w); reflexivity.
Qed.

(** C1. A second call of [RunSpecs] in the same process, whatever the first
    call was given and however it ended, ends in [os.Exit(1)]; it adds to
    the trace only the releases of [exitIfErr] and the re-run error on the
    error stream, so the Suite neither builds the tree nor runs again. *)
Theorem RunSpecs_twice_fails t1 d1 args1 t2 d2 args2 w :
  let w1 := snd (RunSpecs t1 d1 args1 w) in
  let second := RunSpecs t2 d2 args2 w1 in
  fst second = Exited 1 /\
  events_since w1 (snd second) = rerun_events w1 /\
  existsb runs_suite (events_since w1 (snd second)) = false.
Proof.
  intros w1 second.
  destruct (RunSpecs_latched t2 d2 args2 w1 (RunSpecs_sets_latch t1 d1 args1 w))
    as [Hexit Hevents].
  fold second in Hexit, Hevents.
  rewrite Hevents. auto using rerun_events_run_nothing.
Qed.

End Latch.

(** ** Configuration errors *)

Section Configuration.

Context {X : Externals}.

(** C2, as the code has it.  On a first call, when some argument is not a
    SuiteConfig, a ReporterConfig or Labels, every such argument yields one
    error, all of them go to the error stream in argument order, and the
    process exits with status 1 before flag validation runs: nothing else
    is printed.  The flag-validation errors are reported, all of them,
    only by a call in which every argument is recognized. *)
Theorem RunSpecs_reports_unrecognized_arguments t d args w :
  suiteDidRun w = false ->
  (unrecognized args <> [] ->
   fst (RunSpecs t d args w) = Exited 1 /\
   events_since w (snd (RunSpecs t d args w)) =
     (release_events w ++ map unknown_argument_line (unrecognized args))%list) /\
  (unrecognized args = [] ->
   VetConfig flagSet (merged_suiteConfig args (suiteConfig w))
             (merged_reporterConfig args (reporterConfig w)) <> [] ->
   fst (RunSpecs t d args w) = Exited 1 /\
   events_since w (snd (RunSpecs t d args w)) =
     flag_error_events
       (VetConfig flagSet (merged_suiteConfig args (suiteConfig w))
                  (merged_reporterConfig args (reporterConfig w)))).
Proof.
  intros H.
  destruct (RunSpecs t d args w) as [o w'] eqn:E. revert E.
  destruct w as [dr sc rc oi cl gw df tr]. simpl in H. subst dr.
  unfold release_events, flag_error_events.
  cbn [outputInterceptor client suiteConfig reporterConfig].
  all_paths; at_end.
  all: split; [intros Hu | intros Hu Hv]; try congruence.
  all: rewrite ?map_map; auto.
Qed.

End Configuration.

(** C2, as stated, fails: with one unrecognized argument and one
    flag-validation error in the same call, only the former is printed;
    [exitIfErrors] ends the process before [types.VetConfig] is asked. *)
Lemma unknown_argument_hides_flag_errors :
  ~ configuration_errors_reported_together.
Proof.
  intros H.
  specialize (H (Scenario.externals Scenario.bad_flags) Scenario.t0 "suite"
                [Some (VInt 3)] Scenario.fresh eq_refl).
  specialize (H ltac:(discriminate) Scenario.flag_error).
  specialize (H ltac:(right; left; reflexivity)).
  vm_compute in H.
  destruct H as [[H|[]]|[H|[]]]; discriminate H.
Qed.

Lemma RunSpecs_reports_unrecognized_arguments_witness :
  fst (RunSpecs (X := Scenario.externals Scenario.bad_flags) Scenario.t0 "suite"
                [Some (VInt 3); None] Scenario.fresh) = Exited 1 /\
  events_since Scenario.fresh
    (snd (RunSpecs (X := Scenario.externals Scenario.bad_flags) Scenario.t0 "suite"
                   [Some (VInt 3); None] Scenario.fresh)) =
  [unknown_argument_line (X := Scenario.externals Scenario.bad_flags) (Some (VInt 3));
   unknown_argument_line (X := Scenario.externals Scenario.bad_flags) None].
Proof.
  apply (RunSpecs_reports_unrecognized_arguments
           (X := Scenario.externals Scenario.bad_flags) Scenario.t0 "suite"
           [Some (VInt 3); None] Scenario.fresh eq_refl).
  simpl. discriminate.
Defined.

(** ** Failure signalling *)

Section Signals.

Context {X : Externals}.

Lemma first_callerSkip_default : first_callerSkip [] = 0.
Proof. reflexivity. Qed.

Lemma first_callerSkip_given skip more : first_callerSkip (skip :: more) = skip.
Proof. reflexivity. Qed.

(** Without an offset the captured frame is number 1: the caller. *)
Lemma signal_location_default stack :
  signal_location stack [] = NewCodeLocationWithStackTrace 1 stack.
Proof. reflexivity. Qed.

Lemma signal_location_offset stack skip more :
  - 2 ^ 63 <= skip < 2 ^ 63 - 1 ->
  signal_location stack (skip :: more) = NewCodeLocationWithStackTrace (skip + 1) stack.
Proof.
  intros H. unfold signal_location, int_add, wrap64. simpl first_callerSkip.
  f_equal. rewrite Z.mod_small by lia. lia.
Qed.







(** C10. With no panic in flight [recover] yields [nil] and
    [GinkgoRecover] returns at once: no Failer call, no event, and every
    package variable as it was. *)
Theorem GinkgoRecover_without_panic stack w :
  recover None = None /\
  GinkgoRecover stack None w = (Returned tt, w).
Proof. split; reflexivity. Qed.

(** A goroutine whose body returns is left as the body left it. *)
Lemma go_with_GinkgoRecover_returned stack body w w' :
  body w = (Returned tt, w') ->
  go_with_GinkgoRecover stack body w = (Returned tt, w').
Proof.
  intros H. unfold go_with_GinkgoRecover. rewrite H. reflexivity.
Qed.

End Signals.

(** ** Focused and pending variants *)

Section Variants.

Context {X : Externals}.

(** C9. Called from the same place with the same text and arguments, on
    any world: [FDescribe] is [Describe] with [Focus] appended to the
    arguments, [PDescribe] and its alias [XDescribe] are [Describe] with
    [Pending] appended, and [FIt], [PIt], [XIt] stand to [It] in the same
    way.  The outcome, the node handed to the Suite and every other
    effect are those of the base call. *)
Theorem variants_are_decorated_base_calls stack text args w :
  FDescribe stack text args w = decorated Describe Focus stack text args w /\
  PDescribe stack text args w = decorated Describe Pending stack text args w /\
  XDescribe stack text args w = decorated Describe Pending stack text args w /\
  FIt stack text args w = decorated It Focus stack text args w /\
  PIt stack text args w = decorated It Pending stack text args w /\
  XIt stack text args w = decorated It Pending stack text args w.
Proof.
  unfold decorated, XDescribe, XIt, FDescribe, PDescribe, FIt, PIt, Describe, It.
  repeat split.
Qed.

(** The variants differ from the base call on the same arguments exactly
    by the argument list [NewNode] receives. *)
Lemma FDescribe_asks_NewNode stack text args w :
  exists built,
    built = NewNode (trace w) stack NodeTypeContainer text
                    (args ++ [Some (VDecorator Focus)])%list /\
    FDescribe stack text args w =
    pushNode built
      (add_event (EvNewNode NodeTypeContainer text
                            (args ++ [Some (VDecorator Focus)])%list
                            (fst built) (snd built)) w).
Proof. eexists. split; reflexivity. Qed.

End Variants.

(** ** Solo and parallel topology *)

Section Topology.

Context {X : Externals}.

(** The three ways of the mode switch, on the lower-cased mode. *)
Lemma select_outputInterceptor_cases mode :
  (strings_ToLower mode = "swap" ->
   select_outputInterceptor mode = OSGlobalReassigningOutputInterceptor) /\
  (strings_ToLower mode = "none" ->
   select_outputInterceptor mode = NoopOutputInterceptor) /\
  (strings_ToLower mode <> "swap" -> strings_ToLower mode <> "none" ->
   select_outputInterceptor mode = DefaultOutputInterceptor).
Proof.
  unfold select_outputInterceptor.
  destruct (String.eqb_spec (strings_ToLower mode) "swap") as [Hs|Hs];
    destruct (String.eqb_spec (strings_ToLower mode) "none") as [Hn|Hn];
    splits; intros; try reflexivity; try congruence.
Qed.


End Topology.


(** ** The Writer's mode *)

Section WriterMode.

Context {X : Externals}.

(** C6. With the merged configuration [sc], [rc]: whenever [RunSpecs] sets
    the Writer's mode, the mode is stream-and-buffer exactly when
    [rc.Verbose] holds and [sc.ParallelTotal] is 1, and buffer-only in
    every other combination.  And it does set it, once, on the
    [*internal.Writer] in [GinkgoWriter]: on every first call whose
    arguments and flags are in order and which is solo or has connected. *)
Theorem RunSpecs_writer_mode t d args w :
  let sc := merged_suiteConfig args (suiteConfig w) in
  let rc := merged_reporterConfig args (reporterConfig w) in
  let evs := events_since w (snd (RunSpecs t d args w)) in
  (forall wid m, In (EvWriterSetMode wid m) evs ->
     (m = WriterModeStreamAndBuffer <-> Verbose rc = true /\ ParallelTotal sc = 1) /\
     (m = WriterModeBufferOnly <-> ~ (Verbose rc = true /\ ParallelTotal sc = 1))) /\
  (suiteDidRun w = false ->
   unrecognized args = [] ->
   VetConfig flagSet sc rc = [] ->
   ParallelTotal sc = 1 \/
     Client_Connect (trace w) (NewClient (ParallelHost sc)) = true ->
   forall wid, GinkgoWriter w = InternalWriter wid ->
   exists m, filter is_SetMode evs = [EvWriterSetMode wid m]).
Proof.
  intros sc rc evs. subst evs.
  destruct (RunSpecs t d args w) as [o w'] eqn:E.
  destruct w as [dr sc0 rc0 oi0 cl0 gw df tr]. simpl in sc, rc. subst sc rc.
  split.
  - revert E. all_paths; at_end.
    all: intros wid m Hin; find_event Hin.
    all: injection Hin as <- <-; tests_as_props.
    all: intuition congruence.
  - intros Hd Hu Hv Hc wid Hw. simpl in Hd, Hc, Hw. subst dr gw.
    destruct (ParallelTotal (merged_suiteConfig args sc0) =? 1) eqn:Hp.
    + revert E. follow_paths; at_end.
      all: eexists; reflexivity.
    + destruct Hc as [Hc|Hc]; [apply Z.eqb_neq in Hp; contradiction|].
      revert E. follow_paths; at_end.
      all: eexists; reflexivity.
Qed.

End WriterMode.

Lemma RunSpecs_writer_mode_witness :
  filter is_SetMode
    (events_since Scenario.fresh
       (snd (RunSpecs (X := Scenario.externals Scenario.plain_pass) Scenario.t0 "suite"
                      [Some (VReporterConfig Scenario.verboseReporterConfig)]
                      Scenario.fresh)))
  = [EvWriterSetMode 0 WriterModeStreamAndBuffer].
Proof.
  destruct (RunSpecs_writer_mode (X := Scenario.externals Scenario.plain_pass)
              Scenario.t0 "suite"
              [Some (VReporterConfig Scenario.verboseReporterConfig)] Scenario.fresh)
    as [Hmode Hset].
  destruct (Hset eq_refl eq_refl eq_refl (or_introl eq_refl) 0%N eq_refl) as [m Hm].
  assert (Hin : In (EvWriterSetMode 0 m)
                   (filter is_SetMode
                      (events_since Scenario.fresh
                         (snd (RunSpecs (X := Scenario.externals Scenario.plain_pass)
                                        Scenario.t0 "suite"
                                        [Some (VReporterConfig
                                                 Scenario.verboseReporterConfig)]
                                        Scenario.fresh)))))
    by (rewrite Hm; left; reflexivity).
  apply filter_In in Hin. destruct Hin as [Hin _].
  destruct (Hmode 0%N m Hin) as [[_ Hsab] _].
  rewrite Hm, Hsab; [reflexivity | split; reflexivity].
Defined.

(** ** The end of a run *)

Section Finish.

Context {X : Externals}.

(** C8. Whenever [Suite.Run] has answered passed with focused specs
    present, [RunSpecs] reads the editor-integration variable; if its value
    trims to the empty string, [PASS | FOCUSED] is printed and the process
    exits with [GINKGO_FOCUS_EXIT_CODE]; otherwise [RunSpecs] returns
    [true]. *)
Theorem RunSpecs_focus_exit t d args w :
  let r := RunSpecs t d args w in
  let evs := events_since w (snd r) in
  forall a, In (EvSuiteRun a true true) evs ->
  exists v,
    In (EvGetenv editor_marker v) evs /\
    (strings_TrimSpace v = EmptyString ->
       fst r = Exited GINKGO_FOCUS_EXIT_CODE /\
       In (EvStdOut ("PASS | FOCUSED" ++ LF)) evs) /\
    (strings_TrimSpace v <> EmptyString ->
       fst r = Returned true).
Proof.
  intros r evs. subst r evs. unfold editor_marker.
  destruct (RunSpecs t d args w) as [o w'] eqn:E. revert E.
  destruct w as [dr sc0 rc0 oi0 cl0 gw df tr].
  all_paths; at_end.
  all: intros ra Hin; find_event Hin.
  all: clear Hin; tests_as_props; normal_histories.
  all: eexists; split; [pick_event|].
  all: split; intros Hv; try contradiction; try (split; [reflexivity|pick_event]).
  all: try reflexivity.
Qed.

(** C7, where it fails.  On the focus exit of a process that holds a
    connected client, the process ends by [os.Exit] while the deferred
    [client.Close()] is still pending: the client variable still holds the
    client and no [Close] was ever made. *)
Theorem focus_exit_leaves_client_open t d args w :
  let r := RunSpecs t d args w in
  let evs := events_since w (snd r) in
  forall a c v,
    In (EvSuiteRun a true true) evs ->
    run_client a = Some c ->
    In (EvGetenv editor_marker v) evs ->
    strings_TrimSpace v = EmptyString ->
    fst r = Exited GINKGO_FOCUS_EXIT_CODE /\
    client (snd r) = Some c /\
    In (EvClientConnect c true) evs /\
    existsb is_ClientClose evs = false.
Proof.
  intros r evs. subst r evs. unfold editor_marker.
  destruct (RunSpecs t d args w) as [o w'] eqn:E. revert E.
  destruct w as [dr sc0 rc0 oi0 cl0 gw df tr].
  all_paths; at_end.
  all: intros ra rc rv Hin Hc Hg Hv; find_event Hin.
  all: injection Hin as <-; simpl in Hc; try discriminate Hc.
  all: injection Hc as <-.
  all: find_event Hg; injection Hg as <-; tests_as_props; normal_histories;
    try contradiction.
  all: splits; try reflexivity; pick_event.
Qed.

(** Every other way out of a first call does release: once the
    interceptor variable is set the interceptor is shut down, and a client
    left in the client variable was closed, unless the process went
    through the focus exit. *)
Lemma RunSpecs_releases t d args w wid :
  let r := RunSpecs t d args w in
  let evs := events_since w (snd r) in
  suiteDidRun w = false ->
  outputInterceptor w = None ->
  client w = None ->
  GinkgoWriter w = InternalWriter wid ->
  (forall i, outputInterceptor (snd r) = Some i -> In (EvInterceptorShutdown i) evs) /\
  (forall c, client (snd r) = Some c ->
     In (EvClientClose c) evs \/ In (EvStdOut ("PASS | FOCUSED" ++ LF)) evs).
Proof.
  intros r evs Hd Hoi Hcl Hgw. subst r evs.
  destruct (RunSpecs t d args w) as [o w'] eqn:E. revert E.
  destruct w as [dr sc0 rc0 oi0 cl0 gw df tr]. simpl in Hd, Hoi, Hcl, Hgw.
  subst dr oi0 cl0 gw.
  all_paths; at_end.
  all: split; [intros ri Hi | intros rc Hc]; try discriminate.
  all: try (injection Hi as <-; pick_event).
  all: injection Hc as <-.
  all: first [left; pick_event | right; pick_event].
Qed.

End Finish.

Lemma RunSpecs_focus_exit_witness :
  fst (RunSpecs (X := Scenario.externals Scenario.focused_pass_blank_marker)
                Scenario.t0 "suite" [] Scenario.fresh) = Exited 197 /\
  fst (RunSpecs (X := Scenario.externals Scenario.focused_pass_in_editor) Scenario.t0
                "suite" [] Scenario.fresh) = Returned true.
Proof.
  split.
  - destruct (RunSpecs_focus_exit
                (X := Scenario.externals Scenario.focused_pass_blank_marker)
                Scenario.t0 "suite" [] Scenario.fresh
                (mkRunArgs "suite" [] "/home/suite"
                           (NewDefaultReporter Scenario.defaultReporterConfig) 0
                           (Some NoopOutputInterceptor) (NewInterruptHandler 3600 None)
                           None Scenario.defaultSuiteConfig))
      as [v [Hin [Hexit _]]].
    + vm_compute. repeat first [left; reflexivity | right].
    + apply Hexit. vm_compute in Hin.
      repeat (destruct Hin as [Hin|Hin]; [try discriminate Hin|]);
        [injection Hin as <-; reflexivity | destruct Hin].
  - destruct (RunSpecs_focus_exit
                (X := Scenario.externals Scenario.focused_pass_in_editor)
                Scenario.t0 "suite" [] Scenario.fresh
                (mkRunArgs "suite" [] "/home/suite"
                           (NewDefaultReporter Scenario.defaultReporterConfig) 0
                           (Some NoopOutputInterceptor) (NewInterruptHandler 3600 None)
                           None Scenario.defaultSuiteConfig))
      as [v [Hin [_ Hreturn]]].
    + vm_compute. repeat first [left; reflexivity | right].
    + apply Hreturn. vm_compute in Hin.
      repeat (destruct Hin as [Hin|Hin]; [try discriminate Hin|]);
        [injection Hin as <-; discriminate | destruct Hin].
Defined.

Lemma focus_exit_leaves_client_open_witness :
  fst (RunSpecs (X := Scenario.externals Scenario.focused_pass) Scenario.t0 "suite"
                [Some (VSuiteConfig Scenario.parallelSuiteConfig)] Scenario.fresh)
  = Exited 197 /\
  client (snd (RunSpecs (X := Scenario.externals Scenario.focused_pass) Scenario.t0
                        "suite" [Some (VSuiteConfig Scenario.parallelSuiteConfig)]
                        Scenario.fresh))
  = Some Scenario.coordinator /\
  In (EvClientConnect Scenario.coordinator true)
     (events_since Scenario.fresh
        (snd (RunSpecs (X := Scenario.externals Scenario.focused_pass) Scenario.t0
                       "suite" [Some (VSuiteConfig Scenario.parallelSuiteConfig)]
                       Scenario.fresh))) /\
  existsb is_ClientClose
    (events_since Scenario.fresh
       (snd (RunSpecs (X := Scenario.externals Scenario.focused_pass) Scenario.t0
                      "suite" [Some (VSuiteConfig Scenario.parallelSuiteConfig)]
                      Scenario.fresh)))
  = false.
Proof.
  apply (focus_exit_leaves_client_open (X := Scenario.externals Scenario.focused_pass)
           Scenario.t0 "suite" [Some (VSuiteConfig Scenario.parallelSuiteConfig)]
           Scenario.fresh Scenario.parallel_run_args (c := Scenario.coordinator)
           EmptyString).
  - vm_compute. repeat first [left; reflexivity | right].
  - reflexivity.
  - vm_compute. repeat first [left; reflexivity | right].
  - reflexivity.
Defined.

(** ** Further properties of [RunSpecs] *)

Section RunSpecsMore.

Context {X : Externals}.



(** X2. In a process that has connected, whenever [RunSpecs] ends without
    [os.Exit] (it returns, or it panics), the deferred [client.Close()] is
    the last thing that happens, it is the only [Close] of the call, and
    the caller's defer stack is as it was. *)
Theorem deferred_Close_runs_last t d args w c :
  In (EvClientConnect c true) (events_since w (snd (RunSpecs t d args w))) ->
  (forall code, fst (RunSpecs t d args w) <> Exited code) ->
  let evs := events_since w (snd (RunSpecs t d args w)) in
  last evs (EvClientConnect c true) = EvClientClose c /\
  List.length (filter is_ClientClose evs) = 1%nat /\
  deferred (snd (RunSpecs t d args w)) = deferred w.
Proof.
  destruct (RunSpecs t d args w) as [o w'] eqn:E. revert E.
  destruct w as [dr sc0 rc0 oi0 cl0 gw df tr].
  all_paths; at_end.
  all: intros Hin Hne; cbv zeta; find_event Hin.
  all: try (exfalso; eapply Hne; reflexivity).
  all: injection Hin as <-; splits; reflexivity.
Qed.

(** X3. When [RunSpecs] returns, the value is the [passed] that
    [Suite.Run] answered, and [t.Fail()] was called exactly when that value
    is [false]. *)
Theorem RunSpecs_result_is_the_suites t d args w b :
  fst (RunSpecs t d args w) = Returned b ->
  let evs := events_since w (snd (RunSpecs t d args w)) in
  (exists a f, In (EvSuiteRun a b f) evs) /\
  (In (EvTestingTFail t) evs <-> b = false).
Proof.
  destruct (RunSpecs t d args w) as [o w'] eqn:E. revert E.
  destruct w as [dr sc0 rc0 oi0 cl0 gw df tr].
  all_paths; at_end.
  all: intros Hb; cbv zeta; try discriminate Hb.
  all: injection Hb as <-.
  all: split; [eexists; eexists; pick_event|].
  all: split; [intros Hin; find_event Hin; try reflexivity
              | intros Hf; try discriminate Hf; pick_event].
Qed.

(** X4. What [Suite.Run] is handed: the description as given, the labels
    of all [Labels] arguments in argument order, the last [SuiteConfig]
    argument (else the configuration in force), an interrupt handler for
    that configuration's timeout and the client in use, the writer in
    [GinkgoWriter], and as suite path what [filepath.Abs] made of the
    working directory. *)
Theorem RunSpecs_hands_merged_arguments t d args w a p f :
  In (EvSuiteRun a p f) (events_since w (snd (RunSpecs t d args w))) ->
  let evs := events_since w (snd (RunSpecs t d args w)) in
  let sc := merged_suiteConfig args (suiteConfig w) in
  run_description a = d /\
  run_suiteLabels a = merged_labels args /\
  run_suiteConfig a = sc /\
  run_interruptHandler a = NewInterruptHandler (Timeout sc) (run_client a) /\
  GinkgoWriter w = InternalWriter (run_writer a) /\
  exists wd, In (EvGetwd wd None) evs /\ In (EvAbs wd (run_suitePath a) None) evs.
Proof.
  destruct (RunSpecs t d args w) as [o w'] eqn:E. revert E.
  destruct w as [dr sc0 rc0 oi0 cl0 gw df tr].
  all_paths; at_end.
  all: intros Hin; cbv zeta; find_event Hin.
  all: injection Hin as <- <- <-; splits; try reflexivity.
  all: eexists; split; pick_event.
Qed.

(** X5. When building the tree, reading the working directory or making
    it absolute answers an error, the process exits with status 1, that
    error's message is the last thing written, the Suite never runs, and
    the interceptor and the client that the call set up were released
    before. *)
Theorem RunSpecs_infrastructure_error t d args w e ev :
  In ev (events_since w (snd (RunSpecs t d args w))) ->
  failed_with e ev ->
  let evs := events_since w (snd (RunSpecs t d args w)) in
  fst (RunSpecs t d args w) = Exited 1 /\
  last evs ev = EvStdErr (err_Error e ++ LF) /\
  existsb is_SuiteRun evs = false /\
  (forall i, outputInterceptor (snd (RunSpecs t d args w)) = Some i ->
             In (EvInterceptorShutdown i) evs) /\
  (forall c, client (snd (RunSpecs t d args w)) = Some c ->
             In (EvClientClose c) evs).
Proof.
  destruct (RunSpecs t d args w) as [o w'] eqn:E. revert E.
  destruct w as [dr sc0 rc0 oi0 cl0 gw df tr].
  all_paths; at_end.
  all: intros Hin Hf; cbv zeta; find_event Hin; subst ev; simpl in Hf;
    try contradiction.
  all: subst e; splits; try reflexivity.
  all: intros r Hr; try discriminate Hr; injection Hr as <-; pick_event.
Qed.

(** X6. Around [Suite.Run]: the tree was built without error before it,
    the interceptor handed to the Suite is shut down as the very next
    thing after it, and afterwards the Suite neither builds nor runs
    again. *)
Theorem RunSpecs_run_is_framed t d args w a p f :
  In (EvSuiteRun a p f) (events_since w (snd (RunSpecs t d args w))) ->
  let evs := events_since w (snd (RunSpecs t d args w)) in
  existsb is_BuildTree_ok (before_run evs) = true /\
  (exists i, run_outputInterceptor a = Some i /\
             hd_error (after_run evs) = Some (EvInterceptorShutdown i)) /\
  existsb runs_suite (after_run evs) = false.
Proof.
  destruct (RunSpecs t d args w) as [o w'] eqn:E. revert E.
  destruct w as [dr sc0 rc0 oi0 cl0 gw df tr].
  all_paths; at_end.
  all: intros Hin; cbv zeta; find_event Hin.
  all: injection Hin as <- <- <-; splits; try reflexivity.
  all: eexists; split; reflexivity.
Qed.

(** X7. The deprecation report is fetched and written to the error
    stream exactly when the tracker says it tracked deprecations; when it
    says it did not, no report is fetched. *)
Theorem RunSpecs_deprecations_report t d args w :
  let evs := events_since w (snd (RunSpecs t d args w)) in
  (In (EvDidTrackDeprecations true) evs ->
   exists report,
     In (EvDeprecationsReport report) evs /\ In (EvStdErr (report ++ LF)) evs) /\
  (In (EvDidTrackDeprecations false) evs ->
   existsb is_DeprecationsReport evs = false).
Proof.
  destruct (RunSpecs t d args w) as [o w'] eqn:E. revert E.
  destruct w as [dr sc0 rc0 oi0 cl0 gw df tr].
  all_paths; at_end.
  all: cbv zeta; split; intros Hin; find_event Hin.
  all: try reflexivity.
  all: eexists; split; pick_event.
Qed.

(** X8. A call that the latch refuses changes no package variable: the
    configurations among its arguments are not taken over, interceptor,
    client and writer stay. *)
Theorem refused_call_changes_nothing t d args w :
  suiteDidRun w = true ->
  same_variables w (snd (RunSpecs t d args w)).
Proof.
  intros H. unfold same_variables.
  destruct (RunSpecs t d args w) as [o w'] eqn:E. revert E.
  destruct w as [dr sc0 rc0 oi0 cl0 gw df tr]. simpl in H. subst dr.
  all_paths; at_end; splits; reflexivity.
Qed.

(** X9. After a first call of [RunSpecs], however it ended,
    [GinkgoConfiguration] returns the configurations merged from the
    arguments, [GinkgoRandomSeed] and [GinkgoParallelProcess] the fields
    of the merged suite configuration, and none of the three changes
    anything. *)
Theorem GinkgoConfiguration_after_RunSpecs t d args w :
  suiteDidRun w = false ->
  let w' := snd (RunSpecs t d args w) in
  let sc := merged_suiteConfig args (suiteConfig w) in
  let rc := merged_reporterConfig args (reporterConfig w) in
  GinkgoConfiguration w' = (Returned (sc, rc), w') /\
  GinkgoRandomSeed w' = (Returned (RandomSeed sc), w') /\
  GinkgoParallelProcess w' = (Returned (ParallelProcess sc), w').
Proof.
  intros H w' sc rc. subst w' sc rc.
  destruct (RunSpecs t d args w) as [o w'] eqn:E. revert E.
  destruct w as [dr sc0 rc0 oi0 cl0 gw df tr]. simpl in H. subst dr.
  all_paths; at_end; splits; reflexivity.
Qed.

End RunSpecsMore.

(** ** The argument loop, the exit helpers, and registering nodes *)

Section Registration.

Context {X : Externals}.

(** X10. The argument loop over a concatenation is the loop over the
    first part followed by the loop over the second part, started from the
    labels and errors the first part ended with. *)
Theorem RunSpecs_range_app args1 args2 :
  forall labels errs w,
    RunSpecs_range (args1 ++ args2) labels errs w =
    (' (labels', errs') <- RunSpecs_range args1 labels errs ;;
     RunSpecs_range args2 labels' errs') w.
Proof.
  induction args1 as [|arg rest IH]; intros labels errs w.
  - reflexivity.
  - destruct arg as [[c|c|l|d|e|s|n|f]|]; cbn [app RunSpecs_range]; apply IH.
Qed.

(** X11. Of several [SuiteConfig] arguments the last one is in force
    after the loop, whatever stands before it and whatever other arguments
    follow. *)
Theorem last_configuration_wins args1 c args2 labels errs w :
  (forall c', ~ In (Some (VSuiteConfig c')) args2) ->
  suiteConfig (snd (RunSpecs_range (args1 ++ Some (VSuiteConfig c) :: args2)
                                   labels errs w)) = c.
Proof.
  intros Hnone. rewrite RunSpecs_range_from. cbn.
  revert w. induction args1 as [|arg rest IH]; intros w.
  - cbn. clear w. induction args2 as [|arg rest IH]; [reflexivity|].
    destruct arg as [[c'|c'|l|d|e|s|n|f]|]; cbn;
      try (apply IH; intros c'' Hin; apply (Hnone c''); right; exact Hin).
    exfalso. apply (Hnone c'). left. reflexivity.
  - destruct arg as [[c'|c'|l|d|e|s|n|f]|]; cbn; try apply (IH w).
    apply (IH (set_suiteConfig c' w)).
Qed.

(** X12. [exitIfErr(nil)] and [exitIfErrors] of no errors return and
    change nothing; with errors [exitIfErrors] never returns: it releases,
    prints one line per error in order and exits with status 1; on a single
    error it is [exitIfErr] of that error. *)
Theorem exit_helpers_agree w :
  exitIfErr None w = (Returned tt, w) /\
  exitIfErrors [] w = (Returned tt, w) /\
  (forall e rest,
     fst (exitIfErrors (e :: rest) w) = Exited 1 /\
     events_since w (snd (exitIfErrors (e :: rest) w)) =
       (release_events w ++
        map (fun err => EvStdErr (err_Error err ++ LF)) (e :: rest))%list /\
     same_variables w (snd (exitIfErrors (e :: rest) w))) /\
  (forall e, exitIfErrors [e] w = exitIfErr (Some e) w).
Proof.
  splits; try reflexivity.
  intros e rest.
  destruct (exitIfErrors (e :: rest) w) as [o w'] eqn:E. revert E.
  destruct w as [dr sc rc oi cl gw df tr].
  unfold same_variables, release_events. cbn [outputInterceptor client].
  all_paths; at_end; splits; reflexivity.
Qed.

(** X13. [pushNode].  With construction errors the Suite is never asked:
    after the releases every error is printed, in order, and the process
    exits with status 1.  Without, the Suite is asked once; if it refuses,
    its error is printed after the releases and the process exits with
    status 1; if it accepts, [pushNode] returns [true].  No package
    variable changes on any of the three ways. *)
Theorem pushNode_behaviour node errors w :
  let r := pushNode (node, errors) w in
  let evs := events_since w (snd r) in
  same_variables w (snd r) /\
  match errors with
  | _ :: _ =>
      fst r = Exited 1 /\
      evs = (release_events w ++
             map (fun e => EvStdErr (err_Error e ++ LF)) errors)%list
  | [] =>
      match Suite_PushNode (trace w) node with
      | Some e =>
          fst r = Exited 1 /\
          evs = (EvPushNode node (Some e) :: release_events w ++
                 [EvStdErr (err_Error e ++ LF)])%list
      | None =>
          fst r = Returned true /\ evs = [EvPushNode node None]
      end
  end.
Proof.
  intros r evs. subst r evs.
  destruct (pushNode (node, errors) w) as [o w'] eqn:E. revert E.
  destruct w as [dr sc rc oi cl gw df tr].
  unfold same_variables, release_events. cbn [outputInterceptor client trace].
  all_paths; at_end; splits; reflexivity.
Qed.

Lemma registers_node stack nt text args :
  registers true (built <- new_node stack nt text args ;; pushNode built).
Proof.
  intros w evs. subst evs.
  destruct ((built <- new_node stack nt text args ;; pushNode built) w)
    as [o w'] eqn:E. revert E.
  destruct w as [dr sc rc oi cl gw df tr]. unfold same_variables.
  all_paths; at_end.
  all: split; [splits; reflexivity|].
  all: first [ left; split; [reflexivity|]; eexists; pick_event
             | right; splits; [reflexivity | eexists; pick_event |];
               intros nd Hnd; find_event Hnd ].
Qed.

Lemma registers_consulted (oracle : list Event -> Node * list error) :
  registers true (built <- consult oracle ;; pushNode built).
Proof.
  intros w evs. subst evs. unfold consult.
  destruct ((built <- (fun w0 => (Returned (oracle (trace w0)), w0)) ;;
             pushNode built) w)
    as [o w'] eqn:E. revert E.
  destruct w as [dr sc rc oi cl gw df tr]. unfold same_variables.
  all_paths; at_end.
  all: split; [splits; reflexivity|].
  all: first [ left; split; [reflexivity|]; eexists; pick_event
             | right; splits; [reflexivity | eexists; pick_event |];
               intros nd Hnd; find_event Hnd ].
Qed.

Lemma registers_cleanup (oracle : list Event -> Node * list error) :
  registers tt (built <- consult oracle ;; pushNode built ;; ret tt).
Proof.
  intros w evs. subst evs. unfold consult.
  destruct ((built <- (fun w0 => (Returned (oracle (trace w0)), w0)) ;;
             pushNode built ;; ret tt) w)
    as [o w'] eqn:E. revert E.
  destruct w as [dr sc rc oi cl gw df tr]. unfold same_variables.
  all_paths; at_end.
  all: split; [splits; reflexivity|].
  all: first [ left; split; [reflexivity|]; eexists; pick_event
             | right; splits; [reflexivity | eexists; pick_event |];
               intros nd Hnd; find_event Hnd ].
Qed.

(** X14. Every function that declares a node either returns [true]
    ([DeferCleanup]: returns) after the Suite has accepted the node, or
    ends the process with status 1 after an error message and without an
    accepted node; it never panics, never returns [false], and changes no
    package variable. *)
Theorem node_functions_register stack text args body body' newBefore newAfter
        newCleanup newLocation :
  registers true (Describe stack text args) /\
  registers true (FDescribe stack text args) /\
  registers true (PDescribe stack text args) /\
  registers true (It stack text args) /\
  registers true (FIt stack text args) /\
  registers true (PIt stack text args) /\
  registers true (BeforeSuite stack body) /\
  registers true (AfterSuite stack body) /\
  registers true (BeforeEach stack args) /\
  registers true (JustBeforeEach stack args) /\
  registers true (AfterEach stack args) /\
  registers true (JustAfterEach stack args) /\
  registers true (BeforeAll stack args) /\
  registers true (AfterAll stack args) /\
  registers true (SynchronizedBeforeSuite newBefore newLocation stack body body') /\
  registers true (SynchronizedAfterSuite newAfter newLocation stack body body') /\
  registers tt (DeferCleanup newCleanup args).
Proof.
  splits; try apply registers_node.
  - unfold SynchronizedBeforeSuite. apply registers_consulted.
  - unfold SynchronizedAfterSuite. apply registers_consulted.
  - unfold DeferCleanup. apply registers_cleanup.
Qed.

(** X15. A goroutine that defers [GinkgoRecover] never ends in a panic:
    if its body panicked, the one thing added to what the body did is the
    Failer's Panic call with the body's payload; otherwise nothing is
    added.  No package variable is touched. *)
Theorem recovered_goroutine_never_panics stack body w :
  let r := go_with_GinkgoRecover stack body w in
  (forall p, fst r <> Panicked p) /\
  trace (snd r) =
    (trace (snd (body w)) ++
     match fst (body w) with
     | Panicked p => [EvFailer (FailerPanic (NewCodeLocationWithStackTrace 1 stack) p)]
     | _ => []
     end)%list /\
  same_variables (snd (body w)) (snd r).
Proof.
  unfold go_with_GinkgoRecover, same_variables.
  destruct (body w) as [[u|code|p] [dr sc rc oi cl gw df tr]]; cbn;
    rewrite ?app_nil_r; splits; try reflexivity; intros q Hq; discriminate Hq.
Qed.

End Registration.

(** ** Start-up and output interception *)

Section StartUp.

Context {X : Externals}.


(** [PauseOutputInterception] and [ResumeOutputInterception], for any
    behaviour of the interceptor's methods: while the interceptor variable
    is [nil] they return without calling anything and change nothing;
    once it holds an interceptor they do what its method does with that
    interceptor, and nothing else. *)
Theorem pause_and_resume_guard (method : OutputInterceptor -> M unit) w :
  (outputInterceptor w = None ->
   PauseOutputInterception method w = (Returned tt, w) /\
   ResumeOutputInterception method w = (Returned tt, w)) /\
  (forall i, outputInterceptor w = Some i ->
   PauseOutputInterception method w = method i w /\
   ResumeOutputInterception method w = method i w).
Proof.
  unfold PauseOutputInterception, ResumeOutputInterception, bind, gets.
  split; [intros H | intros i H]; rewrite H; split; reflexivity.
Qed.

End StartUp.

(** ** The further properties at concrete inputs *)


Lemma deferred_Close_runs_last_witness :
  last (events_since Scenario.fresh
          (snd (RunSpecs (X := Scenario.externals Scenario.plain_pass) Scenario.t0
                         "suite" [Some (VSuiteConfig Scenario.parallelSuiteConfig)]
                         Scenario.fresh)))
       (EvClientConnect Scenario.coordinator true)
  = EvClientClose Scenario.coordinator.
Proof.
  apply (@deferred_Close_runs_last
           (Scenario.externals Scenario.plain_pass) Scenario.t0 "suite"
           [Some (VSuiteConfig Scenario.parallelSuiteConfig)] Scenario.fresh
           Scenario.coordinator).
  - vm_compute. left. reflexivity.
  - intros code H. vm_compute in H. discriminate H.
Defined.

Lemma RunSpecs_result_is_the_suites_witness :
  In (EvTestingTFail Scenario.t0)
     (events_since Scenario.fresh
        (snd (RunSpecs (X := Scenario.externals Cases.failing) Scenario.t0 "suite" []
                       Scenario.fresh))).
Proof.
  apply (@RunSpecs_result_is_the_suites
           (Scenario.externals Cases.failing) Scenario.t0 "suite" []
           Scenario.fresh false); reflexivity.
Defined.

Lemma RunSpecs_hands_merged_arguments_witness :
  run_suiteLabels
    (mkRunArgs "suite" ["slow"; "db"] "/home/suite"
               (NewDefaultReporter Scenario.defaultReporterConfig) 0
               (Some NoopOutputInterceptor) (NewInterruptHandler 3600 None) None
               Scenario.defaultSuiteConfig)
  = merged_labels [Some (VLabels ["slow"]); Some (VLabels ["db"])].
Proof.
  apply (@RunSpecs_hands_merged_arguments
           (Scenario.externals Scenario.plain_pass) Scenario.t0 "suite"
           [Some (VLabels ["slow"]); Some (VLabels ["db"])] Scenario.fresh
           (mkRunArgs "suite" ["slow"; "db"] "/home/suite"
                      (NewDefaultReporter Scenario.defaultReporterConfig) 0
                      (Some NoopOutputInterceptor) (NewInterruptHandler 3600 None) None
                      Scenario.defaultSuiteConfig)
           true false).
  vm_compute. repeat first [left; reflexivity | right].
Defined.

Lemma RunSpecs_infrastructure_error_witness :
  fst (RunSpecs (X := Scenario.externals Cases.broken_tree) Scenario.t0 "suite" []
                Scenario.fresh) = Exited 1.
Proof.
  apply (@RunSpecs_infrastructure_error
           (Scenario.externals Cases.broken_tree) Scenario.t0 "suite" []
           Scenario.fresh Cases.tree_error (EvBuildTree (Some Cases.tree_error))).
  - vm_compute. repeat first [left; reflexivity | right].
  - reflexivity.
Defined.

Lemma RunSpecs_run_is_framed_witness :
  existsb runs_suite
    (after_run
       (events_since Scenario.fresh
          (snd (RunSpecs (X := Scenario.externals Scenario.plain_pass) Scenario.t0
                         "suite" [] Scenario.fresh)))) = false.
Proof.
  apply (@RunSpecs_run_is_framed
           (Scenario.externals Scenario.plain_pass) Scenario.t0 "suite" []
           Scenario.fresh Cases.solo_run_args true false).
  vm_compute. repeat first [left; reflexivity | right].
Defined.

Lemma refused_call_changes_nothing_witness :
  same_variables Cases.latched
    (snd (RunSpecs (X := Scenario.externals Scenario.plain_pass) Scenario.t0 "again"
                   [Some (VSuiteConfig Scenario.defaultSuiteConfig)] Cases.latched)).
Proof.
  apply (@refused_call_changes_nothing
           (Scenario.externals Scenario.plain_pass) Scenario.t0 "again"
           [Some (VSuiteConfig Scenario.defaultSuiteConfig)] Cases.latched).
  reflexivity.
Defined.

Lemma GinkgoConfiguration_after_RunSpecs_witness :
  fst (GinkgoConfiguration
         (snd (RunSpecs (X := Scenario.externals Scenario.unreachable_host)
                        Scenario.t0 "suite"
                        [Some (VSuiteConfig Scenario.parallelSuiteConfig)]
                        Scenario.fresh)))
  = Returned (Scenario.parallelSuiteConfig, Scenario.defaultReporterConfig).
Proof.
  destruct (@GinkgoConfiguration_after_RunSpecs
              (Scenario.externals Scenario.unreachable_host) Scenario.t0 "suite"
              [Some (VSuiteConfig Scenario.parallelSuiteConfig)] Scenario.fresh
              eq_refl) as [H _].
  rewrite H. reflexivity.
Defined.

Lemma last_configuration_wins_witness :
  suiteConfig
    (snd (RunSpecs_range
            ([Some (VSuiteConfig Scenario.defaultSuiteConfig); None] ++
             Some (VSuiteConfig Scenario.parallelSuiteConfig)
             :: [Some (VLabels ["slow"])])
            [] [] Scenario.fresh))
  = Scenario.parallelSuiteConfig.
Proof.
  apply (@last_configuration_wins
           [Some (VSuiteConfig Scenario.defaultSuiteConfig); None]
           Scenario.parallelSuiteConfig [Some (VLabels ["slow"])] [] []
           Scenario.fresh).
  intros c' [H|[]]. discriminate H.
Defined.

Lemma RunSpecs_deprecations_report_witness :
  exists report,
    In (EvDeprecationsReport report)
       (events_since Scenario.fresh
          (snd (RunSpecs (X := Cases.deprecated) Scenario.t0 "suite" []
                         Scenario.fresh))) /\
    In (EvStdErr (report ++ LF))
       (events_since Scenario.fresh
          (snd (RunSpecs (X := Cases.deprecated) Scenario.t0 "suite" []
                         Scenario.fresh))).
Proof.
  apply (@RunSpecs_deprecations_report Cases.deprecated Scenario.t0 "suite" []
           Scenario.fresh).
  vm_compute. repeat first [left; reflexivity | right].
Defined.
